(** * The TSCE chat-completion adapter

    A shallow embedding of
    [python/packages/autogen-ext/src/autogen_ext/models/tsce/__init__.py]:
    the class [TSCEChatCompletionClient] with its message normalizer
    [_convert_messages], the completion call [create], the streaming
    emulation [create_stream] and the accessors.

    - A Python [str] is a list of Unicode code points.
    - A [RequestUsage] is a mutable object: the adapter holds references
      ([loc]) into a store of such objects, so that the in-place update of
      [_total_usage] and the rebinding of [_cur_usage] are both visible.
    - The harness [TSCEChat] is an opaque callable that may raise; [create]
      runs in a state-and-exception monad. *)

From stdpp Require Import base numbers list option gmap strings.

Local Open Scope Z_scope.

(** ** Python strings *)

(** A [str] is a sequence of code points. *)
Abbreviation str := (list N).

(** An ASCII literal of the source, as a [str]. *)
Definition py (s : string) : str :=
  map Ascii.N_of_ascii (String.list_ascii_of_string s).

(** [len(x)] is a Python integer. *)
Definition len {A} (l : list A) : Z := Z.of_nat (length l).

(** CPython's [Py_UNICODE_ISSPACE]: the table [_Py_ascii_whitespace] below
    128, [_PyUnicode_IsWhitespace] above. It is the predicate [str.split()]
    uses to find the separators. *)
Definition Py_UNICODE_ISSPACE (ch : N) : bool :=
  if (ch <? 128)%N then
    ((9 <=? ch) && (ch <=? 13) || (28 <=? ch) && (ch <=? 32))%N
  else
    ((ch =? 0x85) || (ch =? 0xA0) || (ch =? 0x1680)
     || (0x2000 <=? ch) && (ch <=? 0x200A)
     || (ch =? 0x2028) || (ch =? 0x2029) || (ch =? 0x202F)
     || (ch =? 0x205F) || (ch =? 0x3000))%N.

(** [str.split()] without arguments (CPython's [split_whitespace]): one
    left-to-right pass; [word] is the slice [s[j:i]] of the token being
    read, empty while separators are skipped. A token is emitted when a
    separator or the end of the string follows it. *)
Fixpoint split_from (word : str) (s : str) : list str :=
  match s with
  | [] => match word with [] => [] | _ => [word] end
  | ch :: s' =>
      if Py_UNICODE_ISSPACE ch then
        match word with
        | [] => split_from [] s'
        | _ => word :: split_from [] s'
        end
      else split_from (word ++ [ch]) s'
  end.

Definition split (s : str) : list str := split_from [] s.

(** [enumerate(xs)], counting from [i]. *)
Fixpoint enumerate_from {A} (i : Z) (xs : list A) : list (Z * A) :=
  match xs with
  | [] => []
  | x :: xs' => (i, x) :: enumerate_from (i + 1) xs'
  end.

Definition enumerate {A} (xs : list A) : list (Z * A) := enumerate_from 0 xs.

(** ** Framework and harness data *)

(** References to heap objects. *)
Abbreviation loc := positive.

(** One entry of the harness request: the dict
    [{"role": ..., "content": ...}]. *)
Module ChatPair.
Record t := mk { role : str; content : str }.
End ChatPair.

(** Modelled from the spec: [RequestUsage] of [autogen_core.models], the
    usage counters, a mutable object with two integer attributes. *)
Module RequestUsage.
Record t := mk { prompt_tokens : Z; completion_tokens : Z }.
End RequestUsage.

(** Modelled from the spec: [CreateResult] of [autogen_core.models], the
    completion result: finish reason, content text, a reference to the
    usage object, the cached flag. *)
Module CreateResult.
Record t := mk {
  finish_reason : str;
  content : str;
  usage : loc;
  cached : bool
}.
End CreateResult.

(** Modelled from the spec: the reply of the harness, an object exposing a
    text field [content]. *)
Module Reply.
Record t := mk { content : str }.
End Reply.

(** Modelled from the spec: [ModelInfo] of [autogen_core.models], the
    capability flags and the model family. *)
Module ModelInfo.
Record t := mk {
  vision : bool;
  function_calling : bool;
  json_output : bool;
  family : str;
  structured_output : bool
}.
End ModelInfo.

(** Modelled from the spec: [ModelFamily.UNKNOWN], the unknown model
    family. *)
Definition ModelFamily_UNKNOWN : str := py "unknown".

(** [TSCEChatCompletionClientConfig]: the optional model name. *)
Module TSCEChatCompletionClientConfig.
Record t := mk { model : option str }.
End TSCEChatCompletionClientConfig.

#[global] Instance RequestUsage_inhabited : Inhabited RequestUsage.t :=
  populate (RequestUsage.mk 0 0).

(** What a Python call does: it returns a value or raises. *)
Inductive outcome (Exn A : Type) : Type :=
| Returns (a : A)
| Raises (e : Exn).
Arguments Returns {Exn A} a.
Arguments Raises {Exn A} e.

Section Model.

(** The payloads the adapter never looks into, and the arguments [create]
    accepts: types of the framework, left abstract. *)
Context {Image FunctionCall FunctionExecutionResult : Type}.
Context {Tool JsonOutput Any CancellationToken : Type}.

(** The harness [TSCEChat] of [autogen_ext.harness.tsce_chat]: the state of
    the callable object, the exceptions a call can raise, its constructor
    and its [__call__]. *)
Context {TSCEChat Exn : Type}.
Context (TSCEChat_new : option str -> TSCEChat).
Context (tsce_call : TSCEChat -> list ChatPair.t -> TSCEChat * outcome Exn Reply.t).

(** The attribute [model] of the harness, read by [_to_config]. *)
Context (TSCEChat_model : TSCEChat -> option str).

(** Modelled from the spec: [LLMMessage] of [autogen_core.models], a tagged
    union over system, user, assistant and tool-result messages. The
    adapter reads [content] only: a [str] for a system message, a [str] or
    a list of parts for a user message, a [str] or a list of function calls
    for an assistant message. *)
Inductive LLMMessage : Type :=
| SystemMessage (content : str)
| UserMessage (content : str + list (str + Image))
| AssistantMessage (content : str + list FunctionCall)
| FunctionExecutionResultMessage (content : list FunctionExecutionResult).

(** The instance attributes of the adapter. *)
Record TSCEChatCompletionClient : Type := {
  _tsce : TSCEChat;
  _model_info : ModelInfo.t;
  _cur_usage : loc;
  _total_usage : loc
}.

(** The adapter instance and the store of usage objects. *)
Record State : Type := {
  self : TSCEChatCompletionClient;
  objects : gmap loc RequestUsage.t
}.

(** *** The state-and-exception monad of the methods *)

Definition M (A : Type) : Type := State -> State * outcome Exn A.

#[global] Instance M_ret : MRet M := fun A a st => (st, Returns a).

#[global] Instance M_bind : MBind M := fun A B k m st =>
  match m st with
  | (st', Returns a) => k a st'
  | (st', Raises e) => (st', Raises e)
  end.

(** [self.<attribute>] *)
Definition getattr {A} (f : TSCEChatCompletionClient -> A) : M A :=
  fun st => (st, Returns (f (self st))).

(** [self._cur_usage = l] *)
Definition set_cur_usage (l : loc) : M unit := fun st =>
  ({| self := {| _tsce := _tsce (self st);
                 _model_info := _model_info (self st);
                 _cur_usage := l;
                 _total_usage := _total_usage (self st) |};
      objects := objects st |}, Returns tt).

(** [RequestUsage(prompt_tokens=p, completion_tokens=c)]: a new object. *)
Definition new_RequestUsage (p c : Z) : M loc := fun st =>
  let l := fresh (dom (objects st)) in
  ({| self := self st;
      objects := <[l := RequestUsage.mk p c]> (objects st) |}, Returns l).

(** Reading the attributes of the object at [l]. *)
Definition deref (l : loc) : M RequestUsage.t :=
  fun st => (st, Returns (objects st !!! l)).

(** Writing the attributes of the object at [l], in place. *)
Definition assign (l : loc) (u : RequestUsage.t) : M unit := fun st =>
  ({| self := self st; objects := <[l := u]> (objects st) |}, Returns tt).

(** [self._tsce(chat)]: the call may change the harness and may raise. *)
Definition call_tsce (chat : list ChatPair.t) : M Reply.t := fun st =>
  let '(h, r) := tsce_call (_tsce (self st)) chat in
  ({| self := {| _tsce := h;
                 _model_info := _model_info (self st);
                 _cur_usage := _cur_usage (self st);
                 _total_usage := _total_usage (self st) |};
      objects := objects st |}, r).

(** *** The methods of [TSCEChatCompletionClient] *)

(** [__init__]: the harness handle and two new usage objects, both zero.
    [objects0] is the store before the construction. *)
Definition __init__ (model : option str)
    (objects0 : gmap loc RequestUsage.t) : State :=
  let tsce := TSCEChat_new model in
  let model_info :=
    ModelInfo.mk false false false ModelFamily_UNKNOWN false in
  let cur := fresh (dom objects0) in
  let objects1 := <[cur := RequestUsage.mk 0 0]> objects0 in
  let total := fresh (dom objects1) in
  {| self := {| _tsce := tsce;
                _model_info := model_info;
                _cur_usage := cur;
                _total_usage := total |};
     objects := <[total := RequestUsage.mk 0 0]> objects1 |}.

(** [_convert_messages]: the loop over [messages], [chat.append] at each
    branch that emits. *)
Definition _convert_messages (messages : list LLMMessage) : list ChatPair.t :=
  foldl (fun chat m =>
    match m with
    | SystemMessage content =>
        chat ++ [ChatPair.mk (py "system") content]
    | UserMessage c =>
        let content := match c with inl s => s | inr _ => py EmptyString end in
        chat ++ [ChatPair.mk (py "user") content]
    | AssistantMessage c =>
        match c with
        | inl s => chat ++ [ChatPair.mk (py "assistant") s]
        | inr _ => chat
        end
    | FunctionExecutionResultMessage _ => chat
    end) [] messages.

(** [create]. The two augmented assignments read the attribute of the
    object [self._total_usage], then the attribute of [self._cur_usage],
    and write the sum back into the same object. *)
Definition create (messages : list LLMMessage) (tools : list Tool)
    (json_output : option JsonOutput) (extra_create_args : gmap str Any)
    (cancellation_token : option CancellationToken) : M CreateResult.t :=
  let chat := _convert_messages messages in
  reply ← call_tsce chat;
  let content := Reply.content reply in
  let tokens := split content in
  (* self._cur_usage = RequestUsage(prompt_tokens=0, ...) *)
  cur ← new_RequestUsage 0 (len tokens);
  set_cur_usage cur;;
  (* self._total_usage.prompt_tokens += self._cur_usage.prompt_tokens *)
  t ← getattr _total_usage; ut ← deref t;
  c ← getattr _cur_usage; uc ← deref c;
  assign t (RequestUsage.mk
              (RequestUsage.prompt_tokens ut + RequestUsage.prompt_tokens uc)
              (RequestUsage.completion_tokens ut));;
  (* self._total_usage.completion_tokens += ... *)
  t ← getattr _total_usage; ut ← deref t;
  c ← getattr _cur_usage; uc ← deref c;
  assign t (RequestUsage.mk
              (RequestUsage.prompt_tokens ut)
              (RequestUsage.completion_tokens ut
               + RequestUsage.completion_tokens uc));;
  (* CreateResult(finish_reason="stop", content=content, ...) *)
  usage ← getattr _cur_usage;
  mret (CreateResult.mk (py "stop") content usage false).

(** [create_stream]: the items the generator yields when it is consumed to
    its end, text chunks on the left and the result on the right. The body
    runs [create] first, so that an exception of the harness is raised
    before any item. *)
Definition create_stream (messages : list LLMMessage) (tools : list Tool)
    (json_output : option JsonOutput) (extra_create_args : gmap str Any)
    (cancellation_token : option CancellationToken)
    : M (list (str + CreateResult.t)) :=
  result ← create messages tools json_output extra_create_args
             cancellation_token;
  mret (map (fun '(i, token) =>
               if i <? len (split (CreateResult.content result)) - 1
               then inl (token ++ py " ")
               else inl token)
            (enumerate (split (CreateResult.content result)))
        ++ [inr result]).

Definition close : M unit := mret tt.

(** [actual_usage] and [total_usage] return the usage objects themselves. *)
Definition actual_usage : M loc := getattr _cur_usage.

Definition total_usage : M loc := getattr _total_usage.

Definition count_tokens (messages : list LLMMessage) (tools : list Tool)
    : M Z := mret 0.

Definition remaining_tokens (messages : list LLMMessage) (tools : list Tool)
    : M Z := mret 0.


Definition model_info : M ModelInfo.t := getattr _model_info.

(** [_to_config]: the model name the harness holds. *)
Definition _to_config : M TSCEChatCompletionClientConfig.t :=
  getattr (fun c =>
    TSCEChatCompletionClientConfig.mk (TSCEChat_model (_tsce c))).

(** [_from_config]: [cls(model=config.model)], a new adapter. *)
Definition _from_config (config : TSCEChatCompletionClientConfig.t)
    (objects0 : gmap loc RequestUsage.t) : State :=
  __init__ (TSCEChatCompletionClientConfig.model config) objects0.

(** A caller that awaits [create] once per message sequence, in order,
    and collects the results; an exception ends it. *)
Fixpoint create_all (calls : list (list LLMMessage)) (tools : list Tool)
    (json_output : option JsonOutput) (extra_create_args : gmap str Any)
    (cancellation_token : option CancellationToken)
    : M (list CreateResult.t) :=
  match calls with
  | [] => mret []
  | messages :: rest =>
      result ← create messages tools json_output extra_create_args
                 cancellation_token;
      results ← create_all rest tools json_output extra_create_args
                  cancellation_token;
      mret (result :: results)
  end.

End Model.

(** ** Reference definitions, in the words of the specification *)

(** The tokens joined by a separator, as [sep.join(tokens)] does. *)
Fixpoint join (sep : str) (tokens : list str) : str :=
  match tokens with
  | [] => []
  | [t] => t
  | t :: rest => t ++ sep ++ join sep rest
  end.

(** Each token re-suffixed with a trailing space except the final one. *)
Fixpoint spaced (tokens : list str) : list str :=
  match tokens with
  | [] => []
  | [t] => [t]
  | t :: rest => (t ++ py " ") :: spaced rest
  end.

(** The number of whitespace-separated tokens of a text: the positions
    where a character that is not whitespace starts the text or follows a
    whitespace character. [at_boundary] says that the previous character,
    if any, was whitespace. *)
Fixpoint count_words_from (at_boundary : bool) (s : str) : nat :=
  match s with
  | [] => 0
  | ch :: s' =>
      if Py_UNICODE_ISSPACE ch then count_words_from true s'
      else ((if at_boundary then 1 else 0) + count_words_from false s')%nat
  end.

Definition count_words (s : str) : nat := count_words_from true s.

(** A token: not empty and free of whitespace. *)
Definition is_token (t : str) : Prop :=
  t ≠ [] ∧ Forall (fun ch => Py_UNICODE_ISSPACE ch = false) t.

(** The pair the normalizer owes to one message, if any. *)
Definition chat_pair_of {Image FunctionCall FunctionExecutionResult}
    (m : @LLMMessage Image FunctionCall FunctionExecutionResult)
    : option ChatPair.t :=
  match m with
  | SystemMessage c => Some (ChatPair.mk (py "system") c)
  | UserMessage (inl s) => Some (ChatPair.mk (py "user") s)
  | UserMessage (inr _) => Some (ChatPair.mk (py "user") (py EmptyString))
  | AssistantMessage (inl s) => Some (ChatPair.mk (py "assistant") s)
  | AssistantMessage (inr _) => None
  | FunctionExecutionResultMessage _ => None
  end.

(** A message survives normalization when it owes a pair. *)
Definition survives {Image FunctionCall FunctionExecutionResult}
    (m : @LLMMessage Image FunctionCall FunctionExecutionResult) : bool :=
  match chat_pair_of m with Some _ => true | None => false end.

(** The completion tokens of a list of results, summed. *)
Definition completion_total (results : list CreateResult.t) : Z :=
  foldr (fun r acc => len (split (CreateResult.content r)) + acc) 0 results.

(** The text chunks among the items of a stream. *)
Definition text_chunks (items : list (str + CreateResult.t)) : list str :=
  omap (fun item => match item with inl s => Some s | inr _ => None end)
    items.

(** Componentwise sum of two usages. *)
Definition usage_add (u v : RequestUsage.t) : RequestUsage.t :=
  RequestUsage.mk
    (RequestUsage.prompt_tokens u + RequestUsage.prompt_tokens v)
    (RequestUsage.completion_tokens u + RequestUsage.completion_tokens v).

(** No dangling reference: both usage attributes of the adapter point to
    objects of the store. Python guarantees it; [__init__] establishes it
    and [create] keeps it. *)
Definition allocated (objects : gmap loc RequestUsage.t) (l : loc) : bool :=
  match objects !! l with Some _ => true | None => false end.

Definition wf {TSCEChat} (st : @State TSCEChat) : Prop :=
  allocated (objects st) (_cur_usage (self st)) = true
  ∧ allocated (objects st) (_total_usage (self st)) = true.

(** ** A scripted harness for the examples *)

(** The exception of the scripted harness. *)
Inductive ScriptError : Type := ScriptExhausted | HarnessDown.

(** The harness state is the list of outcomes still to be played, one per
    call; an exhausted script raises. *)
Definition scripted (script : list (outcome ScriptError Reply.t))
    (chat : list ChatPair.t)
    : list (outcome ScriptError Reply.t) * outcome ScriptError Reply.t :=
  match script with
  | [] => ([], Raises ScriptExhausted)
  | r :: rest => (rest, r)
  end.

(** Messages without payloads of interest. *)
Abbreviation Msg := (@LLMMessage unit unit unit).

(** A new adapter on an empty store whose harness plays [script]. *)
Definition adapter (script : list (outcome ScriptError Reply.t))
    : @State (list (outcome ScriptError Reply.t)) :=
  __init__ (fun _ => script) None ∅.

Definition says (text : string) : outcome ScriptError Reply.t :=
  Returns (Reply.mk (py text)).

Definition demo_create (messages : list Msg) :=
  create (Tool := unit) (JsonOutput := unit) (Any := unit)
    (CancellationToken := unit) scripted messages [] None ∅ None.

Definition demo_create_stream (messages : list Msg) :=
  create_stream (Tool := unit) (JsonOutput := unit) (Any := unit)
    (CancellationToken := unit) scripted messages [] None ∅ None.

Definition terse_hi : list Msg :=
  [SystemMessage (py "Be terse"); UserMessage (inl (py "Hi"))].

(** A dialogue with a function call and its result. *)
Definition tool_dialogue : list Msg :=
  [UserMessage (inl (py "Weather in Oslo?"));
   AssistantMessage (inr [tt]);
   FunctionExecutionResultMessage [tt];
   AssistantMessage (inl (py "Sunny"))].

(** The same dialogue without the messages the normalizer drops. *)
Definition plain_dialogue : list Msg :=
  [UserMessage (inl (py "Weather in Oslo?"));
   AssistantMessage (inl (py "Sunny"))].

Definition demo_create_all (calls : list (list Msg)) :=
  create_all (Tool := unit) (JsonOutput := unit) (Any := unit)
    (CancellationToken := unit) scripted calls [] None ∅ None.

(** A new adapter whose harness has two replies ready, and the same
    adapter after a first call. *)
Definition two_replies : @State (list (outcome ScriptError Reply.t)) :=
  adapter [says "Hello there"; says "It is sunny today"].

Definition after_hello : @State (list (outcome ScriptError Reply.t)) :=
  (demo_create terse_hi two_replies).1.

(** ** Tokens of a text *)

Section Tokens.

Implicit Types (s word t : str) (tokens : list str).

Example split_hello :
  split (py "  Hello   there ") = [py "Hello"; py "there"].
Proof. reflexivity. Qed.

(** A line feed, a no-break space and an ideographic space separate
    tokens; a zero-width space does not. *)
Example split_unicode :
  split [72; 105; 10; 0xA0; 116; 0x3000; 0x200B; 33]%N
  = [[72; 105]; [116]; [0x200B; 33]]%N.
Proof. reflexivity. Qed.

Lemma split_from_space ch word s :
  Py_UNICODE_ISSPACE ch = true -> word ≠ [] ->
  split_from word (ch :: s) = word :: split s.
Proof.
  intros Hch Hw. simpl. rewrite Hch. by destruct word.
Qed.

Lemma split_from_letters t : forall word s,
  Forall (fun ch => Py_UNICODE_ISSPACE ch = false) t ->
  split_from word (t ++ s) = split_from (word ++ t) s.
Proof.
  induction t as [|ch t IH]; intros word s Ht; simpl.
  - by rewrite app_nil_r.
  - inversion Ht as [|? ? Hch Ht']; subst. rewrite Hch.
    rewrite IH by done. by rewrite <- app_assoc.
Qed.

(** Every element of [split s] is a token. *)
Lemma split_from_tokens s : forall word,
  Forall (fun ch => Py_UNICODE_ISSPACE ch = false) word ->
  Forall is_token (split_from word s).
Proof.
  induction s as [|ch s IH]; intros word Hw; simpl.
  - destruct word; constructor; [|constructor]. by split.
  - destruct (Py_UNICODE_ISSPACE ch) eqn:Hch.
    + destruct word.
      * by apply IH.
      * constructor; [by split | by apply IH].
    + apply IH. apply Forall_app. split; [done|]. by constructor.
Qed.

Lemma split_tokens s : Forall is_token (split s).
Proof. by apply split_from_tokens. Qed.

(** [split] counts the words of the text. *)
Lemma length_split_from s : forall word,
  length (split_from word s) =
  match word with
  | [] => count_words_from true s
  | _ => S (count_words_from false s)
  end.
Proof.
  induction s as [|ch s IH]; intros word; simpl.
  - by destruct word.
  - destruct (Py_UNICODE_ISSPACE ch) eqn:Hch.
    + destruct word; simpl; by rewrite IH.
    + rewrite IH. by destruct word.
Qed.

Lemma length_split s : length (split s) = count_words s.
Proof. apply (length_split_from s []). Qed.

(** Splitting single-spaced tokens gives the tokens back. *)
Lemma isspace_space : Py_UNICODE_ISSPACE 32 = true.
Proof. reflexivity. Qed.

Lemma split_join tokens :
  Forall is_token tokens -> split (join (py " ") tokens) = tokens.
Proof.
  induction 1 as [|t rest [Hne Ht] Hrest IH]; [done|].
  destruct rest as [|t' rest].
  - simpl. unfold split.
    replace (split_from [] t) with (split_from [] (t ++ []))
      by (by rewrite app_nil_r).
    rewrite split_from_letters by done. simpl. by destruct t.
  - change (join (py " ") (t :: t' :: rest))
      with (t ++ 32%N :: join (py " ") (t' :: rest)).
    unfold split at 1. rewrite split_from_letters by done.
    rewrite split_from_space; [|done|done]. by rewrite IH.
Qed.

(** The chunks of the stream, concatenated, are the tokens joined by one
    space each. *)
Lemma concat_spaced tokens : concat (spaced tokens) = join (py " ") tokens.
Proof.
  induction tokens as [|t rest IH]; [done|].
  destruct rest as [|t' rest]; simpl.
  - by rewrite app_nil_r.
  - simpl in IH. rewrite IH. by rewrite <- app_assoc.
Qed.

Lemma length_spaced tokens : length (spaced tokens) = length tokens.
Proof.
  induction tokens as [|t rest IH]; [done|].
  destruct rest; simpl in *; by rewrite ?IH.
Qed.

(** The loop of [create_stream] over [enumerate], started at index [i] of
    a list of [n] tokens, emits the [spaced] chunks. *)
Lemma stream_loop_spaced {R : Type} tokens : forall (i n : Z),
  n = i + len tokens ->
  map (fun '(j, token) =>
         if j <? n - 1 then inl (token ++ py " ") else @inl str R token)
      (enumerate_from i tokens)
  = map inl (spaced tokens).
Proof.
  unfold len.
  induction tokens as [|t rest IH]; intros i n Hn; [done|].
  destruct rest as [|t' rest].
  - simpl in *. destruct (Z.ltb_spec i (n - 1)); [lia|done].
  - change (spaced (t :: t' :: rest))
      with ((t ++ py " ") :: spaced (t' :: rest)).
    change (enumerate_from i (t :: t' :: rest))
      with ((i, t) :: enumerate_from (i + 1) (t' :: rest)).
    rewrite !map_cons. rewrite (IH (i + 1) n).
    + destruct (Z.ltb_spec i (n - 1)); [done|]. simpl length in Hn. lia.
    + simpl length in *. lia.
Qed.

End Tokens.

(** ** The message normalizer *)

Section Normalizer.

Context {Image FunctionCall FunctionExecutionResult : Type}.

Local Abbreviation Message :=
  (@LLMMessage Image FunctionCall FunctionExecutionResult).

Implicit Types (m : Message) (messages : list Message).

(** The loop appends, message by message, the pair each message owes. *)
Lemma convert_messages_omap messages :
  _convert_messages messages = omap chat_pair_of messages.
Proof.
  unfold _convert_messages.
  match goal with
  | |- foldl ?f [] _ = _ =>
      assert (Hloop : forall chat,
        foldl f chat messages = chat ++ omap chat_pair_of messages)
  end.
  { induction messages as [|m ms IH]; intros chat; simpl.
    - by rewrite app_nil_r.
    - rewrite IH.
      destruct m as [c|[s|parts]|[s|calls]|results]; simpl;
        by rewrite <- ?app_assoc. }
  apply (Hloop []).
Qed.

Lemma convert_messages_app (l1 l2 : list Message) :
  _convert_messages (l1 ++ l2) = _convert_messages l1 ++ _convert_messages l2.
Proof. rewrite !convert_messages_omap. apply omap_app. Qed.

Lemma convert_messages_cons m messages :
  _convert_messages (m :: messages) =
  match chat_pair_of m with
  | Some p => p :: _convert_messages messages
  | None => _convert_messages messages
  end.
Proof. rewrite !convert_messages_omap. simpl. by destruct (chat_pair_of m). Qed.

Lemma convert_messages_insert (l1 l2 : list Message) m :
  _convert_messages (l1 ++ m :: l2) =
  _convert_messages l1 ++
  match chat_pair_of m with Some p => [p] | None => [] end ++
  _convert_messages l2.
Proof.
  rewrite convert_messages_app, convert_messages_cons.
  by destruct (chat_pair_of m).
Qed.

(** A message yields one pair at most. *)
Lemma length_convert_messages messages :
  (length (_convert_messages messages) ≤ length messages)%nat.
Proof.
  induction messages as [|m ms IH]; [done|].
  rewrite convert_messages_cons. destruct (chat_pair_of m); simpl; lia.
Qed.

(** The output lists, in order, the pairs of the surviving messages. *)
Lemma convert_messages_survivors messages :
  Forall2 (fun m p => chat_pair_of m = Some p)
    (filter (fun m => survives m) messages) (_convert_messages messages).
Proof.
  induction messages as [|m ms IH]; [constructor|].
  rewrite convert_messages_cons. destruct (chat_pair_of m) eqn:Hm.
  - rewrite filter_cons_True by (unfold survives; by rewrite Hm).
    by constructor.
  - rewrite filter_cons_False by (unfold survives; rewrite Hm; simpl; tauto).
    done.
Qed.

(** C2: the normalizer keeps the surviving messages in their relative
    order and drops every tool-result message: the output pairs are, one
    for one and in order, the pairs of a sublist [kept] of the input, the
    surviving messages; no [FunctionExecutionResultMessage] is among
    them, and removing such a message from the input changes nothing. *)
Theorem convert_messages_keeps_order_drops_tool_results messages :
  (exists kept,
      kept = filter (fun m => survives m) messages
      ∧ sublist kept messages
      ∧ Forall2 (fun m p => chat_pair_of m = Some p)
          kept (_convert_messages messages)
      ∧ forall results, FunctionExecutionResultMessage results ∉ kept)
  ∧ (forall l1 l2 results,
      messages = l1 ++ FunctionExecutionResultMessage results :: l2 ->
      _convert_messages messages = _convert_messages (l1 ++ l2)).
Proof.
  split.
  - eexists. split; [reflexivity|]. split; [apply sublist_filter|].
    split; [apply convert_messages_survivors|].
    intros results [Hs _]%list_elem_of_filter. exact Hs.
  - intros l1 l2 results ->.
    rewrite convert_messages_insert, convert_messages_app. done.
Qed.

(** C3: an assistant message whose content is not a plain string yields
    no pair at all, so that the output is strictly shorter than the input;
    an assistant message whose content is a plain string yields the pair
    with role "assistant" and that content. *)
Theorem convert_messages_assistant messages calls :
  AssistantMessage (inr calls) ∈ messages ->
  (length (_convert_messages messages) < length messages)%nat
  ∧ (forall l1 l2,
      messages = l1 ++ AssistantMessage (inr calls) :: l2 ->
      _convert_messages messages
      = _convert_messages l1 ++ _convert_messages l2)
  ∧ (forall (l1 l2 : list Message) s,
      _convert_messages (l1 ++ AssistantMessage (inl s) :: l2)
      = _convert_messages l1
        ++ ChatPair.mk (py "assistant") s :: _convert_messages l2).
Proof.
  intros Hin. split; [|split].
  - apply list_elem_of_split in Hin as (l1 & l2 & ->).
    rewrite convert_messages_insert. simpl.
    rewrite !length_app. simpl.
    pose proof (length_convert_messages l1).
    pose proof (length_convert_messages l2). lia.
  - intros l1 l2 ->. by rewrite convert_messages_insert.
  - intros l1 l2 s. by rewrite convert_messages_insert.
Qed.

(** C7: a system message yields the pair with role "system" and its
    content verbatim; a user message yields the pair with role "user"
    whose text is the content when it is a plain string and the empty
    string otherwise. *)
Theorem convert_messages_system_user (l1 l2 : list Message) :
  (forall c,
      _convert_messages (l1 ++ SystemMessage c :: l2)
      = _convert_messages l1
        ++ ChatPair.mk (py "system") c :: _convert_messages l2)
  ∧ (forall s,
      _convert_messages (l1 ++ UserMessage (inl s) :: l2)
      = _convert_messages l1
        ++ ChatPair.mk (py "user") s :: _convert_messages l2)
  ∧ (forall parts,
      _convert_messages (l1 ++ UserMessage (inr parts) :: l2)
      = _convert_messages l1
        ++ ChatPair.mk (py "user") (py EmptyString)
             :: _convert_messages l2).
Proof.
  repeat split; intros; by rewrite convert_messages_insert.
Qed.

End Normalizer.

(** ** The completion call and its usage accounting *)

Section Adapter.

Context {Image FunctionCall FunctionExecutionResult : Type}.
Context {Tool JsonOutput Any CancellationToken : Type}.
Context {TSCEChat Exn : Type}.
Context (TSCEChat_new : option str -> TSCEChat).
Context (tsce_call :
  TSCEChat -> list ChatPair.t -> TSCEChat * outcome Exn Reply.t).

Local Abbreviation Message :=
  (@LLMMessage Image FunctionCall FunctionExecutionResult).

Implicit Types (st : @State TSCEChat) (messages : list Message).
Implicit Types (tools : list Tool) (json_output : option JsonOutput).
Implicit Types (extra_create_args : gmap str Any).
Implicit Types (cancellation_token : option CancellationToken).
Implicit Types (objs : gmap loc RequestUsage.t).

Lemma allocated_dom objs l : allocated objs l = true <-> l ∈ dom objs.
Proof.
  unfold allocated. rewrite elem_of_dom.
  destruct (objs !! l) as [u|].
  - split; [by eexists | done].
  - split; [done | by intros [u Hu]].
Qed.

Lemma allocated_insert objs l l' u :
  allocated objs l = true -> allocated (<[l' := u]> objs) l = true.
Proof. rewrite !allocated_dom, dom_insert_L. set_solver. Qed.

Lemma allocated_insert_eq objs l u : allocated (<[l := u]> objs) l = true.
Proof. unfold allocated. by rewrite lookup_insert_eq. Qed.

(** A new object is none of the objects already referred to. *)
Lemma fresh_not_allocated objs l :
  allocated objs l = true -> l ≠ fresh (dom objs).
Proof.
  rewrite allocated_dom. intros Hl ->. by apply (is_fresh (dom objs)).
Qed.

(** [__init__] leaves no dangling reference, and the two counters are two
    objects. *)
Lemma wf_init model objs : wf (__init__ TSCEChat_new model objs).
Proof.
  split; simpl.
  - apply allocated_insert, allocated_insert_eq.
  - apply allocated_insert_eq.
Qed.

(** When the harness raises, [create] raises the same exception and has
    touched nothing but the harness. *)
Lemma create_raises st messages tools json_output extra_create_args
    cancellation_token h e :
  tsce_call (_tsce (self st)) (_convert_messages messages) = (h, Raises e) ->
  create tsce_call messages tools json_output extra_create_args
    cancellation_token st
  = ({| self := {| _tsce := h;
                   _model_info := _model_info (self st);
                   _cur_usage := _cur_usage (self st);
                   _total_usage := _total_usage (self st) |};
        objects := objects st |}, Raises e).
Proof.
  intros Hcall. unfold create, mbind, M_bind, call_tsce.
  by rewrite Hcall.
Qed.

(** When the harness replies, [create] returns: the new object [cur]
    holds the usage of the call, and the object [_total_usage] has been
    increased by it in place. *)
Lemma create_returns st messages tools json_output extra_create_args
    cancellation_token h reply :
  wf st ->
  tsce_call (_tsce (self st)) (_convert_messages messages)
    = (h, Returns reply) ->
  let cur := fresh (dom (objects st)) in
  let total := _total_usage (self st) in
  let u := RequestUsage.mk 0 (len (split (Reply.content reply))) in
  create tsce_call messages tools json_output extra_create_args
    cancellation_token st
  = ({| self := {| _tsce := h;
                   _model_info := _model_info (self st);
                   _cur_usage := cur;
                   _total_usage := total |};
        objects := <[total := usage_add (objects st !!! total) u]>
                     (<[cur := u]> (objects st)) |},
     Returns (CreateResult.mk (py "stop") (Reply.content reply) cur false)).
Proof.
  intros [_ Htotal] Hcall cur total u.
  assert (total ≠ cur) as Hne by by apply fresh_not_allocated.
  unfold create, mbind, M_bind, call_tsce. rewrite Hcall.
  unfold new_RequestUsage, set_cur_usage, getattr, deref, assign, mret,
    M_ret. simpl. fold cur total u.
  rewrite !lookup_total_insert_eq.
  rewrite lookup_total_insert_ne by done.
  rewrite lookup_total_insert_ne by (by simpl).
  rewrite lookup_total_insert_eq.
  rewrite insert_insert_eq. simpl.
  unfold usage_add. simpl. by rewrite Z.add_0_r.
Qed.

(** The result of a successful call, whatever the state. *)
Lemma create_result st messages tools json_output extra_create_args
    cancellation_token h reply :
  tsce_call (_tsce (self st)) (_convert_messages messages)
    = (h, Returns reply) ->
  exists st',
    create tsce_call messages tools json_output extra_create_args
      cancellation_token st
    = (st', Returns (CreateResult.mk (py "stop") (Reply.content reply)
                       (fresh (dom (objects st))) false)).
Proof.
  intros Hcall. unfold create, mbind, M_bind, call_tsce. rewrite Hcall.
  simpl. by eexists.
Qed.

(** A call that returns has had its reply from the harness. *)
Lemma create_returns_inv st messages tools json_output extra_create_args
    cancellation_token st' result :
  create tsce_call messages tools json_output extra_create_args
    cancellation_token st = (st', Returns result) ->
  exists h reply,
    tsce_call (_tsce (self st)) (_convert_messages messages)
      = (h, Returns reply).
Proof.
  destruct (tsce_call (_tsce (self st)) (_convert_messages messages))
    as [h [reply|e]] eqn:Hcall; [by eauto|].
  erewrite create_raises by done. discriminate.
Qed.

(** [create] keeps the references of the adapter valid. *)
Lemma wf_create st messages tools json_output extra_create_args
    cancellation_token st' out :
  wf st ->
  create tsce_call messages tools json_output extra_create_args
    cancellation_token st = (st', out) ->
  wf st'.
Proof.
  intros Hwf.
  destruct (tsce_call (_tsce (self st)) (_convert_messages messages))
    as [h [reply|e]] eqn:Hcall.
  - rewrite (create_returns _ _ _ _ _ _ _ _ Hwf Hcall).
    intros [= <- _]. destruct Hwf as [_ Htotal]. split; simpl.
    + apply allocated_insert, allocated_insert_eq.
    + apply allocated_insert_eq.
  - erewrite create_raises by done.
    intros [= <- _]. exact Hwf.
Qed.

(** The state after a successful call, read from the result. *)
Lemma create_returns_state st messages tools json_output extra_create_args
    cancellation_token st' result :
  wf st ->
  create tsce_call messages tools json_output extra_create_args
    cancellation_token st = (st', Returns result) ->
  let u := RequestUsage.mk 0 (len (split (CreateResult.content result))) in
  let total := _total_usage (self st) in
  CreateResult.usage result = fresh (dom (objects st))
  ∧ CreateResult.usage result ≠ total
  ∧ _cur_usage (self st') = CreateResult.usage result
  ∧ _total_usage (self st') = total
  ∧ objects st' = <[total := usage_add (objects st !!! total) u]>
                    (<[CreateResult.usage result := u]> (objects st)).
Proof.
  intros Hwf Hcreate.
  destruct (create_returns_inv _ _ _ _ _ _ _ _ Hcreate) as (h & reply & Hcall).
  rewrite (create_returns _ _ _ _ _ _ _ _ Hwf Hcall) in Hcreate.
  injection Hcreate as <- <-. simpl.
  repeat split. apply not_eq_sym, fresh_not_allocated, Hwf.
Qed.

(** C4: when the harness replies, [create] returns a result whose usage
    object reports [prompt_tokens] 0 and [completion_tokens] equal to the
    number of whitespace-separated tokens of the returned content. *)
Theorem create_usage_counts_tokens st messages tools json_output
    extra_create_args cancellation_token h reply :
  wf st ->
  tsce_call (_tsce (self st)) (_convert_messages messages)
    = (h, Returns reply) ->
  exists st' result u,
    create tsce_call messages tools json_output extra_create_args
      cancellation_token st = (st', Returns result)
    ∧ CreateResult.content result = Reply.content reply
    ∧ objects st' !! CreateResult.usage result = Some u
    ∧ RequestUsage.prompt_tokens u = 0
    ∧ RequestUsage.completion_tokens u
      = len (split (CreateResult.content result))
    ∧ RequestUsage.completion_tokens u
      = Z.of_nat (count_words (CreateResult.content result)).
Proof.
  intros Hwf Hcall.
  pose proof (create_returns _ messages tools json_output extra_create_args
                cancellation_token _ _ Hwf Hcall) as Hcreate.
  simpl in Hcreate. do 3 eexists. split; [exact Hcreate|]. simpl.
  split; [done|]. split.
  - rewrite lookup_insert_ne by apply fresh_not_allocated, Hwf.
    apply lookup_insert_eq.
  - simpl. unfold len. by rewrite length_split.
Qed.

(** C5: on a new adapter, after two successful [create] calls in a row,
    the object [total_usage] returns holds the componentwise sum of the
    usages of the two results. *)
Theorem total_usage_two_calls model objs
    messages1 tools1 json_output1 extra_create_args1 cancellation_token1
    messages2 tools2 json_output2 extra_create_args2 cancellation_token2
    st1 st2 result1 result2 :
  create tsce_call messages1 tools1 json_output1 extra_create_args1
    cancellation_token1 (__init__ TSCEChat_new model objs)
    = (st1, Returns result1) ->
  create tsce_call messages2 tools2 json_output2 extra_create_args2
    cancellation_token2 st1 = (st2, Returns result2) ->
  exists total u1 u2,
    total_usage (Exn := Exn) st2 = (st2, Returns total)
    ∧ objects st1 !! CreateResult.usage result1 = Some u1
    ∧ objects st2 !! CreateResult.usage result1 = Some u1
    ∧ objects st2 !! CreateResult.usage result2 = Some u2
    ∧ objects st2 !! total = Some (usage_add u1 u2).
Proof.
  intros Hcreate1 Hcreate2.
  pose proof (wf_init model objs) as Hwf0.
  pose proof (wf_create _ _ _ _ _ _ _ _ Hwf0 Hcreate1) as Hwf1.
  destruct (create_returns_state _ _ _ _ _ _ _ _ Hwf0 Hcreate1)
    as (Hfresh1 & Hne1 & Hcur1 & Htotal1 & Hobjs1).
  destruct (create_returns_state _ _ _ _ _ _ _ _ Hwf1 Hcreate2)
    as (Hfresh2 & Hne2 & Hcur2 & Htotal2 & Hobjs2).
  set (u1 := RequestUsage.mk 0 (len (split (CreateResult.content result1))))
    in *.
  set (u2 := RequestUsage.mk 0 (len (split (CreateResult.content result2))))
    in *.
  set (total := _total_usage (self (__init__ TSCEChat_new model objs))) in *.
  assert (objects st1 !! CreateResult.usage result1 = Some u1) as Hu1.
  { rewrite Hobjs1, lookup_insert_ne by congruence. apply lookup_insert_eq. }
  assert (CreateResult.usage result1 ≠ CreateResult.usage result2) as Hne12.
  { rewrite Hfresh2. apply fresh_not_allocated.
    unfold allocated. by rewrite Hu1. }
  assert (objects (__init__ TSCEChat_new model objs) !!! total
          = RequestUsage.mk 0 0) as Hzero.
  { subst total. simpl. apply lookup_total_insert_eq. }
  exists total, u1, u2. split; [|split; [|split; [|split]]].
  - unfold total_usage, getattr. by rewrite Htotal2, Htotal1.
  - exact Hu1.
  - rewrite Hobjs2, Htotal1.
    rewrite lookup_insert_ne by congruence.
    by rewrite lookup_insert_ne by congruence.
  - rewrite Hobjs2, Htotal1.
    rewrite lookup_insert_ne by congruence. apply lookup_insert_eq.
  - rewrite Hobjs2, Htotal1, lookup_insert_eq. f_equal.
    rewrite Hobjs1, lookup_total_insert_eq, Hzero.
    unfold usage_add. simpl. by rewrite Z.add_0_r.
Qed.

(** C6: when the harness replies, the result [create] returns has finish
    reason "stop" and is not cached. *)
Theorem create_finish_reason_cached st messages tools json_output
    extra_create_args cancellation_token h reply :
  tsce_call (_tsce (self st)) (_convert_messages messages)
    = (h, Returns reply) ->
  exists st' result,
    create tsce_call messages tools json_output extra_create_args
      cancellation_token st = (st', Returns result)
    ∧ CreateResult.finish_reason result = py "stop"
    ∧ CreateResult.cached result = false.
Proof.
  intros Hcall.
  destruct (create_result st messages tools json_output extra_create_args
              cancellation_token _ _ Hcall) as [st' Hcreate].
  by eauto.
Qed.

(** C8: [tools], [json_output], [extra_create_args] and
    [cancellation_token] are never consulted: two calls that differ in
    them only end in the same state with the same outcome. *)
Theorem create_ignores_options st messages
    tools json_output extra_create_args cancellation_token
    tools' json_output' extra_create_args' cancellation_token' :
  create tsce_call messages tools json_output extra_create_args
    cancellation_token st
  = create tsce_call messages tools' json_output' extra_create_args'
      cancellation_token' st.
Proof. reflexivity. Qed.

(** C9: [count_tokens] and [remaining_tokens] return 0, for every message
    sequence and every sequence of tools, and leave the state alone. *)
Theorem count_and_remaining_tokens_zero st messages tools :
  count_tokens (Exn := Exn) messages tools st = (st, Returns 0)
  ∧ remaining_tokens (Exn := Exn) messages tools st = (st, Returns 0).
Proof. split; reflexivity. Qed.

(** C10: when the harness raises, [create] raises the same exception, the
    adapter refers to the same two usage objects as before, and no usage
    object has changed. *)
Theorem create_failure_leaves_usage st messages tools json_output
    extra_create_args cancellation_token h e :
  tsce_call (_tsce (self st)) (_convert_messages messages) = (h, Raises e) ->
  exists st',
    create tsce_call messages tools json_output extra_create_args
      cancellation_token st = (st', Raises e)
    ∧ _cur_usage (self st') = _cur_usage (self st)
    ∧ _total_usage (self st') = _total_usage (self st)
    ∧ objects st' = objects st.
Proof.
  intros Hcall. eexists. split; [by apply create_raises|]. done.
Qed.

(** An exception of [create] is the exception of [create_stream], before
    any item. *)
Lemma create_stream_raises st messages tools json_output extra_create_args
    cancellation_token st' e :
  create tsce_call messages tools json_output extra_create_args
    cancellation_token st = (st', Raises e) ->
  create_stream tsce_call messages tools json_output extra_create_args
    cancellation_token st = (st', Raises e).
Proof.
  intros Hcreate. unfold create_stream, mbind, M_bind. by rewrite Hcreate.
Qed.

(** C1, as amended: when [create] returns [result], [create_stream] ends
    in the same state and yields the chunks, one per token of the content,
    each suffixed with a space but the last, and then [result] itself.
    The chunks concatenated are the tokens joined by single spaces; they
    are the content itself exactly when the content is such a join of
    tokens. *)
Theorem create_stream_chunks st messages tools json_output
    extra_create_args cancellation_token st' result :
  create tsce_call messages tools json_output extra_create_args
    cancellation_token st = (st', Returns result) ->
  exists chunks,
    create_stream tsce_call messages tools json_output extra_create_args
      cancellation_token st
    = (st', Returns (map inl chunks ++ [inr result]))
    ∧ chunks = spaced (split (CreateResult.content result))
    ∧ concat chunks = join (py " ") (split (CreateResult.content result))
    ∧ (concat chunks = CreateResult.content result
       <-> exists tokens,
             Forall is_token tokens
             ∧ CreateResult.content result = join (py " ") tokens).
Proof.
  intros Hcreate. eexists. split; [|split; [reflexivity|split]].
  - unfold create_stream, mbind, M_bind. rewrite Hcreate.
    unfold mret, M_ret, enumerate.
    by rewrite stream_loop_spaced by done.
  - apply concat_spaced.
  - rewrite concat_spaced. split.
    + intros Hcontent. exists (split (CreateResult.content result)).
      split; [apply split_tokens | done].
    + intros (tokens & Htokens & Hcontent).
      rewrite Hcontent at 1. by rewrite split_join.
Qed.

End Adapter.

(** ** The properties on concrete runs *)

(** The example of the specification: the harness answers "Hello there". *)
Example create_hello_there :
  snd (demo_create terse_hi (adapter [says "Hello there"]))
  = Returns (CreateResult.mk (py "stop") (py "Hello there") 3%positive false).
Proof. vm_compute. reflexivity. Qed.

Example create_stream_hello_there :
  snd (demo_create_stream terse_hi (adapter [says "Hello there"]))
  = Returns [inl (py "Hello "); inl (py "there");
             inr (CreateResult.mk (py "stop") (py "Hello there")
                    3%positive false)].
Proof. vm_compute. reflexivity. Qed.

Example convert_terse_hi :
  _convert_messages terse_hi
  = [ChatPair.mk (py "system") (py "Be terse");
     ChatPair.mk (py "user") (py "Hi")].
Proof. reflexivity. Qed.

(** C1 as stated fails: the harness answers "Hello  there", with two
    spaces; the stream yields "Hello " and "there", which concatenate to a
    text with one space only. *)
Lemma create_stream_loses_whitespace :
  snd (demo_create terse_hi (adapter [says "Hello  there"]))
  = Returns (CreateResult.mk (py "stop") (py "Hello  there") 3%positive false)
  ∧ snd (demo_create_stream terse_hi (adapter [says "Hello  there"]))
    = Returns [inl (py "Hello "); inl (py "there");
               inr (CreateResult.mk (py "stop") (py "Hello  there")
                      3%positive false)]
  ∧ concat [py "Hello "; py "there"] ≠ py "Hello  there".
Proof.
  split; [|split].
  - vm_compute. reflexivity.
  - vm_compute. reflexivity.
  - vm_compute. discriminate.
Qed.

Lemma create_stream_chunks_witness :
  exists chunks,
    demo_create_stream terse_hi (adapter [says "Hello there"])
    = (fst (demo_create terse_hi (adapter [says "Hello there"])),
       Returns (map inl chunks
                ++ [inr (CreateResult.mk (py "stop") (py "Hello there")
                           3%positive false)]))
    ∧ chunks = [py "Hello "; py "there"]
    ∧ concat chunks = py "Hello there".
Proof.
  destruct (create_stream_chunks (Tool := unit) (JsonOutput := unit)
              (Any := unit) (CancellationToken := unit) scripted
              (adapter [says "Hello there"]) terse_hi [] None ∅ None
              (fst (demo_create terse_hi (adapter [says "Hello there"])))
              (CreateResult.mk (py "stop") (py "Hello there") 3%positive false))
    as (chunks & Hstream & Hchunks & Hconcat & _).
  - vm_compute. reflexivity.
  - exists chunks. split; [exact Hstream|]. split.
    + rewrite Hchunks. vm_compute. reflexivity.
    + rewrite Hconcat. vm_compute. reflexivity.
Defined.

Example convert_tool_dialogue :
  _convert_messages tool_dialogue
  = [ChatPair.mk (py "user") (py "Weather in Oslo?");
     ChatPair.mk (py "assistant") (py "Sunny")].
Proof. reflexivity. Qed.

Lemma convert_messages_assistant_witness :
  AssistantMessage (inr [tt]) ∈ tool_dialogue
  ∧ (length (_convert_messages tool_dialogue) < length tool_dialogue)%nat.
Proof.
  assert (AssistantMessage (inr [tt]) ∈ tool_dialogue) as Hin.
  { unfold tool_dialogue. apply list_elem_of_further, list_elem_of_here. }
  split; [exact Hin|].
  exact (proj1 (convert_messages_assistant tool_dialogue [tt] Hin)).
Defined.

Lemma create_usage_counts_tokens_witness :
  wf (adapter [says "Hello there"])
  ∧ exists st' result u,
      demo_create terse_hi (adapter [says "Hello there"])
      = (st', Returns result)
      ∧ CreateResult.content result = py "Hello there"
      ∧ objects st' !! CreateResult.usage result = Some u
      ∧ RequestUsage.prompt_tokens u = 0
      ∧ RequestUsage.completion_tokens u = 2.
Proof.
  assert (wf (adapter [says "Hello there"])) as Hwf.
  { split; vm_compute; reflexivity. }
  split; [exact Hwf|].
  destruct (create_usage_counts_tokens (Tool := unit) (JsonOutput := unit)
              (Any := unit) (CancellationToken := unit) scripted
              (adapter [says "Hello there"]) terse_hi [] None ∅ None
              [] (Reply.mk (py "Hello there")) Hwf eq_refl)
    as (st' & result & u & Hcreate & Hcontent & Hu & Hp & Hc & _).
  exists st', result, u. repeat (split; [assumption|]).
  rewrite Hc, Hcontent. vm_compute. reflexivity.
Defined.

Lemma total_usage_two_calls_witness :
  exists total u1 u2,
    objects (fst (demo_create tool_dialogue
                    (fst (demo_create terse_hi
                            (adapter [says "Hello there";
                                      says "It is sunny today"])))))
      !! total = Some (usage_add u1 u2)
    ∧ u1 = RequestUsage.mk 0 2
    ∧ u2 = RequestUsage.mk 0 4
    ∧ usage_add u1 u2 = RequestUsage.mk 0 6.
Proof.
  destruct (total_usage_two_calls (Tool := unit) (JsonOutput := unit)
              (Any := unit) (CancellationToken := unit)
              (fun _ => [says "Hello there"; says "It is sunny today"])
              scripted None ∅
              terse_hi [] None ∅ None tool_dialogue [] None ∅ None
              (fst (demo_create terse_hi
                      (adapter [says "Hello there";
                                says "It is sunny today"])))
              (fst (demo_create tool_dialogue
                      (fst (demo_create terse_hi
                              (adapter [says "Hello there";
                                        says "It is sunny today"])))))
              (CreateResult.mk (py "stop") (py "Hello there")
                 3%positive false)
              (CreateResult.mk (py "stop") (py "It is sunny today")
                 4%positive false))
    as (total & u1 & u2 & _ & Hu1 & _ & Hu2 & Htotal).
  - vm_compute. reflexivity.
  - vm_compute. reflexivity.
  - vm_compute in Hu1, Hu2. injection Hu1 as <-. injection Hu2 as <-.
    exists total, (RequestUsage.mk 0 2), (RequestUsage.mk 0 4).
    split; [exact Htotal|]. repeat split.
Defined.

Lemma create_finish_reason_cached_witness :
  exists st' result,
    demo_create terse_hi (adapter [says "Hello there"])
    = (st', Returns result)
    ∧ CreateResult.finish_reason result = py "stop"
    ∧ CreateResult.cached result = false.
Proof.
  exact (create_finish_reason_cached (Tool := unit) (JsonOutput := unit)
           (Any := unit) (CancellationToken := unit) scripted
           (adapter [says "Hello there"]) terse_hi [] None ∅ None
           [] (Reply.mk (py "Hello there")) eq_refl).
Defined.

Lemma create_failure_leaves_usage_witness :
  exists st',
    demo_create terse_hi (adapter [Raises HarnessDown])
    = (st', Raises HarnessDown)
    ∧ _cur_usage (self st') = 1%positive
    ∧ _total_usage (self st') = 2%positive
    ∧ objects st' = objects (adapter [Raises HarnessDown]).
Proof.
  exact (create_failure_leaves_usage (Tool := unit) (JsonOutput := unit)
           (Any := unit) (CancellationToken := unit) scripted
           (adapter [Raises HarnessDown]) terse_hi [] None ∅ None
           [] HarnessDown eq_refl).
Defined.

(** ** More on tokens: what splitting keeps and how many tokens there are *)

Section TokenFacts.

Implicit Types (s word t : str) (tokens : list str).

Local Abbreviation letter := (fun ch : N => Py_UNICODE_ISSPACE ch = false).

Lemma filter_letter_cons ch s :
  filter letter (ch :: s)
  = if Py_UNICODE_ISSPACE ch then filter letter s
    else ch :: filter letter s.
Proof.
  rewrite filter_cons. destruct (Py_UNICODE_ISSPACE ch) eqn:Hch;
    by case_decide.
Qed.

Lemma filter_letter_letters t : Forall letter t -> filter letter t = t.
Proof.
  induction 1 as [|ch t Hch Ht IH]; [done|].
  rewrite filter_letter_cons, Hch. by rewrite IH.
Qed.

(** The tokens, concatenated, are the text without its whitespace. *)
Lemma concat_split_from s : forall word,
  concat (split_from word s) = word ++ filter letter s.
Proof.
  induction s as [|ch s IH]; intros word.
  - simpl. destruct word; simpl; by rewrite ?app_nil_r.
  - rewrite filter_letter_cons. simpl.
    destruct (Py_UNICODE_ISSPACE ch).
    + destruct word; simpl; by rewrite IH.
    + rewrite IH. by rewrite <- app_assoc.
Qed.

Lemma filter_letter_join tokens :
  filter letter (join (py " ") tokens) = filter letter (concat tokens).
Proof.
  induction tokens as [|t rest IH]; [done|].
  destruct rest as [|t' rest].
  - simpl. by rewrite app_nil_r.
  - change (join (py " ") (t :: t' :: rest))
      with (t ++ 32%N :: join (py " ") (t' :: rest)).
    change (concat (t :: t' :: rest)) with (t ++ concat (t' :: rest)).
    rewrite !filter_app, filter_letter_cons.
    change (Py_UNICODE_ISSPACE 32) with true. cbv iota. by rewrite IH.
Qed.

Lemma filter_letter_split s :
  filter letter (join (py " ") (split s)) = filter letter s.
Proof.
  rewrite filter_letter_join. unfold split. rewrite concat_split_from.
  simpl. apply filter_letter_letters.
  induction s as [|ch s IH]; [constructor|].
  rewrite filter_letter_cons.
  destruct (Py_UNICODE_ISSPACE ch) eqn:Hch; [done|by constructor].
Qed.

(** A text of [n] characters has at most [(n + 1) / 2] tokens. *)
Lemma count_words_from_bound s : forall b : bool,
  (2 * count_words_from b s ≤ length s + (if b then 1 else 0))%nat.
Proof.
  induction s as [|ch s IH]; intros b; simpl; [destruct b; lia|].
  destruct (Py_UNICODE_ISSPACE ch).
  - specialize (IH true). simpl in IH. destruct b; lia.
  - specialize (IH false). simpl in IH. destruct b; lia.
Qed.

(** A text has no token exactly when it is whitespace throughout. *)
Lemma count_words_zero s :
  count_words s = 0%nat
  <-> Forall (fun ch => Py_UNICODE_ISSPACE ch = true) s.
Proof.
  unfold count_words. split.
  - induction s as [|ch s IH]; [constructor|]. simpl.
    destruct (Py_UNICODE_ISSPACE ch) eqn:Hch; [|lia].
    intros H. constructor; [done | by apply IH].
  - intros Hs. generalize true.
    induction Hs as [|ch s Hch Hs IH]; intros b; [done|].
    simpl. rewrite Hch. apply IH.
Qed.

(** No chunk of a stream is empty. *)
Lemma spaced_nonempty tokens :
  Forall is_token tokens -> Forall (fun chunk => chunk ≠ []) (spaced tokens).
Proof.
  induction 1 as [|t rest [Ht _] Hrest IH]; [constructor|].
  destruct rest as [|t' rest].
  - by repeat constructor.
  - change (spaced (t :: t' :: rest))
      with ((t ++ py " ") :: spaced (t' :: rest)).
    constructor; [by destruct t | exact IH].
Qed.

End TokenFacts.

(** ** More on the normalizer *)

Section NormalizerFacts.

Context {Image FunctionCall FunctionExecutionResult : Type}.

Local Abbreviation Message :=
  (@LLMMessage Image FunctionCall FunctionExecutionResult).

Implicit Types (m : Message) (messages : list Message).

(** X1: normalizing a conversation assembled from batches of messages is
    normalizing each batch and concatenating the outcomes; in particular
    the normalization of [l1 ++ l2] is that of [l1] followed by that of
    [l2], and no message gives no pair. *)
Theorem convert_messages_batches (batches : list (list Message)) :
  _convert_messages (concat batches)
  = concat (map _convert_messages batches).
Proof.
  induction batches as [|l batches IH]; [done|].
  simpl. by rewrite convert_messages_app, IH.
Qed.

(** X2: the harness is only ever handed the roles "system", "user" and
    "assistant". *)
Theorem convert_messages_roles messages :
  Forall (fun p => ChatPair.role p = py "system"
                   ∨ ChatPair.role p = py "user"
                   ∨ ChatPair.role p = py "assistant")
    (_convert_messages messages).
Proof.
  induction messages as [|m ms IH]; [constructor|].
  rewrite convert_messages_cons.
  destruct m as [c|[s|parts]|[s|calls]|results]; simpl;
    try constructor; auto.
Qed.

(** X3: the output is as long as the input exactly when the input holds
    no tool-result message and no assistant message with content that is
    not a string. *)
Theorem convert_messages_same_length messages :
  length (_convert_messages messages) = length messages
  <-> Forall (fun m =>
        match m with
        | AssistantMessage (inr _) | FunctionExecutionResultMessage _ => False
        | _ => True
        end) messages.
Proof.
  induction messages as [|m ms IH]; [by split; [constructor|]|].
  rewrite convert_messages_cons, Forall_cons.
  pose proof (length_convert_messages ms) as Hle.
  destruct m as [c|[s|parts]|[s|calls]|results]; simpl;
    try (rewrite <- IH; split; [intros [=]; by split | intros [_ ->]; done]);
    split; try lia; by intros [[] _].
Qed.

End NormalizerFacts.

(** ** More on the completion call, the stream and the accessors *)

Section AdapterFacts.

Context {Image FunctionCall FunctionExecutionResult : Type}.
Context {Tool JsonOutput Any CancellationToken : Type}.
Context {TSCEChat Exn : Type}.
Context (TSCEChat_new : option str -> TSCEChat).
Context (tsce_call :
  TSCEChat -> list ChatPair.t -> TSCEChat * outcome Exn Reply.t).
Context (TSCEChat_model : TSCEChat -> option str).

Local Abbreviation Message :=
  (@LLMMessage Image FunctionCall FunctionExecutionResult).

Implicit Types (st : @State TSCEChat) (messages : list Message).
Implicit Types (calls : list (list Message)).
Implicit Types (tools : list Tool) (json_output : option JsonOutput).
Implicit Types (extra_create_args : gmap str Any).
Implicit Types (cancellation_token : option CancellationToken).
Implicit Types (objs : gmap loc RequestUsage.t).
Implicit Types (items : list (str + CreateResult.t)).

Lemma allocated_lookup objs l :
  allocated objs l = true -> objs !! l = Some (objs !!! l).
Proof.
  unfold allocated. rewrite lookup_total_alt.
  by destruct (objs !! l).
Qed.



(** The two ways [create_all] goes on a first call. *)
Lemma create_all_cons st messages calls tools json_output extra_create_args
    cancellation_token :
  create_all tsce_call (messages :: calls) tools json_output
    extra_create_args cancellation_token st
  = match create tsce_call messages tools json_output extra_create_args
            cancellation_token st with
    | (st1, Returns result) =>
        match create_all tsce_call calls tools json_output
                extra_create_args cancellation_token st1 with
        | (st2, Returns results) => (st2, Returns (result :: results))
        | (st2, Raises e) => (st2, Raises e)
        end
    | (st1, Raises e) => (st1, Raises e)
    end.
Proof. reflexivity. Qed.

(** What a stream that ends has yielded. *)
Lemma create_stream_returns st messages tools json_output extra_create_args
    cancellation_token st' result :
  create tsce_call messages tools json_output extra_create_args
    cancellation_token st = (st', Returns result) ->
  create_stream tsce_call messages tools json_output extra_create_args
    cancellation_token st
  = (st', Returns (map inl (spaced (split (CreateResult.content result)))
                   ++ [inr result])).
Proof.
  intros Hcreate. unfold create_stream, mbind, M_bind. rewrite Hcreate.
  unfold mret, M_ret, enumerate. by rewrite stream_loop_spaced by done.
Qed.

Lemma create_stream_returns_inv st messages tools json_output
    extra_create_args cancellation_token st' items :
  create_stream tsce_call messages tools json_output extra_create_args
    cancellation_token st = (st', Returns items) ->
  exists result,
    create tsce_call messages tools json_output extra_create_args
      cancellation_token st = (st', Returns result)
    ∧ items = map inl (spaced (split (CreateResult.content result)))
              ++ [inr result].
Proof.
  destruct (create tsce_call messages tools json_output extra_create_args
              cancellation_token st) as [st1 [result|e]] eqn:Hcreate.
  - rewrite (create_stream_returns _ _ _ _ _ _ _ _ Hcreate).
    intros [= <- <-]. by exists result.
  - unfold create_stream, mbind, M_bind. rewrite Hcreate. discriminate.
Qed.

Lemma text_chunks_stream (chunks : list str) (result : CreateResult.t) :
  text_chunks (map inl chunks ++ [inr result]) = chunks.
Proof.
  unfold text_chunks.
  induction chunks as [|c chunks IH]; [done|]. simpl. f_equal. exact IH.
Qed.

Lemma last_stream (chunks : list str) (result : CreateResult.t) :
  last (map inl chunks ++ [@inr str _ result]) = Some (inr result).
Proof. apply last_snoc. Qed.

(** X4: [create] looks at the messages through the normalizer only: two
    message sequences with the same normalization lead to the same state
    and the same outcome. *)
Theorem create_depends_on_normalization st messages1 messages2 tools
    json_output extra_create_args cancellation_token :
  _convert_messages messages1 = _convert_messages messages2 ->
  create tsce_call messages1 tools json_output extra_create_args
    cancellation_token st
  = create tsce_call messages2 tools json_output extra_create_args
      cancellation_token st.
Proof. intros Heq. unfold create. by rewrite Heq. Qed.


(** X6: a successful [create] adds the usage of its result to the object
    [total_usage] returns, which is the same object as before the call,
    and makes [actual_usage] return the usage object of the result. *)
Theorem create_accumulates st messages tools json_output extra_create_args
    cancellation_token st' result :
  wf st ->
  create tsce_call messages tools json_output extra_create_args
    cancellation_token st = (st', Returns result) ->
  exists u,
    objects st' !! CreateResult.usage result = Some u
    ∧ actual_usage (Exn := Exn) st'
      = (st', Returns (CreateResult.usage result))
    ∧ total_usage (Exn := Exn) st'
      = (st', Returns (_total_usage (self st)))
    ∧ objects st' !! _total_usage (self st)
      = Some (usage_add (objects st !!! _total_usage (self st)) u).
Proof.
  intros Hwf Hcreate.
  destruct (create_returns_state _ _ _ _ _ _ _ _ _ Hwf Hcreate)
    as (Hfresh & Hne & Hcur & Htotal & Hobjs).
  eexists. split; [|split; [|split]].
  - rewrite Hobjs, lookup_insert_ne by congruence. apply lookup_insert_eq.
  - unfold actual_usage, getattr. by rewrite Hcur.
  - unfold total_usage, getattr. by rewrite Htotal.
  - rewrite Hobjs. apply lookup_insert_eq.
Qed.

(** X7: [create] changes no usage object but the total: every other
    object of the store, the usage of an earlier result for one, holds
    after the call what it held before, whether the call returns or
    raises. *)
Theorem create_keeps_other_objects st messages tools json_output
    extra_create_args cancellation_token st' out l :
  wf st ->
  create tsce_call messages tools json_output extra_create_args
    cancellation_token st = (st', out) ->
  allocated (objects st) l = true ->
  l ≠ _total_usage (self st) ->
  objects st' !! l = objects st !! l.
Proof.
  intros Hwf Hcreate Hl Hne. destruct out as [result|e].
  - destruct (create_returns_state _ _ _ _ _ _ _ _ _ Hwf Hcreate)
      as (Hfresh & _ & _ & _ & Hobjs).
    rewrite Hobjs, lookup_insert_ne by congruence.
    rewrite lookup_insert_ne; [done|].
    rewrite Hfresh. by apply not_eq_sym, fresh_not_allocated.
  - destruct (tsce_call (_tsce (self st)) (_convert_messages messages))
      as [h [reply|e']] eqn:Hcall.
    + destruct (create_result tsce_call st messages tools json_output
                  extra_create_args cancellation_token _ _ Hcall)
        as [st1 Hst1].
      congruence.
    + erewrite create_raises in Hcreate by done.
      by injection Hcreate as <- _.
Qed.

(** How [create_all] moves the total, from any state. *)
Lemma create_all_state calls : forall st st' results tools json_output
    extra_create_args cancellation_token,
  wf st ->
  create_all tsce_call calls tools json_output extra_create_args
    cancellation_token st = (st', Returns results) ->
  wf st'
  ∧ _total_usage (self st') = _total_usage (self st)
  ∧ objects st' !!! _total_usage (self st)
    = usage_add (objects st !!! _total_usage (self st))
        (RequestUsage.mk 0 (completion_total results))
  ∧ length results = length calls.
Proof.
  induction calls as [|messages calls IH];
    intros st st' results tools json_output extra_create_args
      cancellation_token Hwf Hall.
  - injection Hall as <- <-. repeat split; try apply Hwf.
    unfold usage_add. simpl. rewrite !Z.add_0_r.
    by destruct (objects st !!! _total_usage (self st)).
  - rewrite create_all_cons in Hall.
    destruct (create tsce_call messages tools json_output extra_create_args
                cancellation_token st) as [st1 [result|e]] eqn:Hcreate;
      [|discriminate].
    destruct (create_all tsce_call calls tools json_output
                extra_create_args cancellation_token st1)
      as [st2 [rs|e]] eqn:Hrest; [|discriminate].
    injection Hall as <- <-.
    pose proof (wf_create _ _ _ _ _ _ _ _ _ Hwf Hcreate) as Hwf1.
    destruct (create_returns_state _ _ _ _ _ _ _ _ _ Hwf Hcreate)
      as (_ & _ & _ & Htotal1 & Hobjs1).
    destruct (IH _ _ _ _ _ _ _ Hwf1 Hrest)
      as (Hwf2 & Htotal2 & Hobjs2 & Hlen).
    split; [done|]. split; [congruence|]. split; [|simpl; congruence].
    rewrite Htotal1 in Hobjs2. rewrite Hobjs2, Hobjs1.
    rewrite lookup_total_insert_eq. unfold usage_add. simpl.
    f_equal; lia.
Qed.

(** X8: on a new adapter, after any number of [create] calls in a row
    that all return, the total usage holds no prompt token and the sum of
    the completion tokens of all the results; there is one result per
    call. *)
Theorem create_all_total model objs calls tools json_output
    extra_create_args cancellation_token st' results :
  create_all tsce_call calls tools json_output extra_create_args
    cancellation_token (__init__ TSCEChat_new model objs)
    = (st', Returns results) ->
  exists total,
    total_usage (Exn := Exn) st' = (st', Returns total)
    ∧ objects st' !! total
      = Some (RequestUsage.mk 0 (completion_total results))
    ∧ length results = length calls.
Proof.
  intros Hall.
  destruct (create_all_state _ _ _ _ _ _ _ _ (wf_init _ model objs) Hall)
    as (Hwf & Htotal & Hobjs & Hlen).
  exists (_total_usage (self st')). split; [done|]. split; [|done].
  rewrite allocated_lookup by apply Hwf. f_equal.
  rewrite Htotal, Hobjs. simpl. by rewrite lookup_total_insert_eq.
Qed.




(** X11: a stream that ends has yielded text chunks only and then the
    result; the number of text chunks is the [completion_tokens] of the
    usage of that result, and no chunk is empty. *)
Theorem create_stream_chunk_count st messages tools json_output
    extra_create_args cancellation_token st' items :
  wf st ->
  create_stream tsce_call messages tools json_output extra_create_args
    cancellation_token st = (st', Returns items) ->
  exists result u,
    items = map inl (text_chunks items) ++ [inr result]
    ∧ objects st' !! CreateResult.usage result = Some u
    ∧ len (text_chunks items) = RequestUsage.completion_tokens u
    ∧ Forall (fun chunk => chunk ≠ []) (text_chunks items).
Proof.
  intros Hwf Hstream.
  destruct (create_stream_returns_inv _ _ _ _ _ _ _ _ Hstream)
    as (result & Hcreate & ->).
  destruct (create_returns_state _ _ _ _ _ _ _ _ _ Hwf Hcreate)
    as (_ & Hne & _ & _ & Hobjs).
  rewrite text_chunks_stream. eexists result, _.
  split; [done|]. split; [|split].
  - rewrite Hobjs, lookup_insert_ne by congruence. apply lookup_insert_eq.
  - simpl. unfold len. by rewrite length_spaced.
  - apply spaced_nonempty, split_tokens.
Qed.

(** X12: when the reply of the harness is empty or whitespace throughout,
    the stream yields the result alone, no text chunk, and the usage of
    the result counts no completion token. *)
Theorem create_stream_blank_reply st messages tools json_output
    extra_create_args cancellation_token h reply :
  wf st ->
  tsce_call (_tsce (self st)) (_convert_messages messages)
    = (h, Returns reply) ->
  Forall (fun ch => Py_UNICODE_ISSPACE ch = true) (Reply.content reply) ->
  exists st' result,
    create_stream tsce_call messages tools json_output extra_create_args
      cancellation_token st = (st', Returns [inr result])
    ∧ CreateResult.content result = Reply.content reply
    ∧ objects st' !! CreateResult.usage result
      = Some (RequestUsage.mk 0 0).
Proof.
  intros Hwf Hcall Hblank.
  pose proof (create_returns tsce_call st messages tools json_output
                extra_create_args cancellation_token _ _ Hwf Hcall)
    as Hcreate.
  simpl in Hcreate.
  apply count_words_zero in Hblank. rewrite <- length_split in Hblank.
  destruct (split (Reply.content reply)) as [|t rest] eqn:Hsplit;
    [|discriminate].
  do 2 eexists. split; [|split].
  - rewrite (create_stream_returns _ _ _ _ _ _ _ _ Hcreate). simpl.
    by rewrite Hsplit.
  - done.
  - simpl. rewrite lookup_insert_ne by apply fresh_not_allocated, Hwf.
    by rewrite lookup_insert_eq.
Qed.

(** X13: the stream loses whitespace only. The text chunks concatenated
    have the characters of the content that are not whitespace, in their
    order, and split into the same tokens as the content. *)
Theorem create_stream_keeps_tokens st messages tools json_output
    extra_create_args cancellation_token st' items :
  create_stream tsce_call messages tools json_output extra_create_args
    cancellation_token st = (st', Returns items) ->
  exists result,
    last items = Some (inr result)
    ∧ filter (fun ch => Py_UNICODE_ISSPACE ch = false)
        (concat (text_chunks items))
      = filter (fun ch => Py_UNICODE_ISSPACE ch = false)
          (CreateResult.content result)
    ∧ split (concat (text_chunks items))
      = split (CreateResult.content result).
Proof.
  intros Hstream.
  destruct (create_stream_returns_inv _ _ _ _ _ _ _ _ Hstream)
    as (result & Hcreate & ->).
  exists result. rewrite text_chunks_stream, concat_spaced.
  split; [apply last_stream|]. split.
  - apply filter_letter_split.
  - apply split_join, split_tokens.
Qed.

(** X14: the completion tokens of a result are at least 0 and at most
    half the length of the content, rounded up; they are 0 exactly when
    the content is empty or whitespace throughout. *)
Theorem completion_tokens_bounds st messages tools json_output
    extra_create_args cancellation_token st' result :
  wf st ->
  create tsce_call messages tools json_output extra_create_args
    cancellation_token st = (st', Returns result) ->
  exists u,
    objects st' !! CreateResult.usage result = Some u
    ∧ 0 ≤ RequestUsage.completion_tokens u
    ∧ 2 * RequestUsage.completion_tokens u
      ≤ len (CreateResult.content result) + 1
    ∧ (RequestUsage.completion_tokens u = 0
       <-> Forall (fun ch => Py_UNICODE_ISSPACE ch = true)
             (CreateResult.content result)).
Proof.
  intros Hwf Hcreate.
  destruct (create_returns_state _ _ _ _ _ _ _ _ _ Hwf Hcreate)
    as (_ & Hne & _ & _ & Hobjs).
  eexists. split.
  { rewrite Hobjs, lookup_insert_ne by congruence. apply lookup_insert_eq. }
  simpl. unfold len. rewrite length_split.
  pose proof (count_words_from_bound (CreateResult.content result) true)
    as Hbound.
  cbv iota in Hbound.
  fold (count_words (CreateResult.content result)) in Hbound.
  split; [lia|]. split; [lia|].
  rewrite <- count_words_zero. lia.
Qed.

(** X15: a new adapter reports zero for the current and for the total
    usage, in two distinct objects, and its construction changes no usage
    object that existed. *)
Theorem init_usage model objs :
  exists cur total,
    actual_usage (Exn := Exn) (__init__ TSCEChat_new model objs)
    = (__init__ TSCEChat_new model objs, Returns cur)
    ∧ total_usage (Exn := Exn) (__init__ TSCEChat_new model objs)
      = (__init__ TSCEChat_new model objs, Returns total)
    ∧ cur ≠ total
    ∧ objects (__init__ TSCEChat_new model objs) !! cur
      = Some (RequestUsage.mk 0 0)
    ∧ objects (__init__ TSCEChat_new model objs) !! total
      = Some (RequestUsage.mk 0 0)
    ∧ forall l, allocated objs l = true ->
        objects (__init__ TSCEChat_new model objs) !! l = objs !! l.
Proof.
  set (cur := fresh (dom objs)).
  set (total := fresh (dom (<[cur := RequestUsage.mk 0 0]> objs))).
  assert (cur ≠ total) as Hne.
  { apply fresh_not_allocated, allocated_insert_eq. }
  exists cur, total. repeat split; try done.
  - simpl. fold cur total. rewrite lookup_insert_ne by congruence.
    apply lookup_insert_eq.
  - simpl. apply lookup_insert_eq.
  - intros l Hl. simpl. fold cur total.
    rewrite lookup_insert_ne.
    + rewrite lookup_insert_ne; [done|].
      by apply not_eq_sym, fresh_not_allocated.
    + apply not_eq_sym, fresh_not_allocated. by apply allocated_insert.
Qed.

(** X16: when the harness keeps the model name it is constructed with,
    the configuration read from an adapter built from a configuration is
    that configuration. *)
Theorem config_round_trip config objs :
  (forall model, TSCEChat_model (TSCEChat_new model) = model) ->
  _to_config (Exn := Exn) TSCEChat_model (_from_config TSCEChat_new config objs)
  = (_from_config TSCEChat_new config objs, Returns config).
Proof.
  intros Hmodel. unfold _to_config, getattr, _from_config. simpl.
  rewrite Hmodel. by destruct config.
Qed.

End AdapterFacts.

(** ** The further properties on concrete runs *)

Lemma create_depends_on_normalization_witness :
  demo_create tool_dialogue two_replies
  = demo_create plain_dialogue two_replies.
Proof.
  exact (create_depends_on_normalization scripted two_replies tool_dialogue
           plain_dialogue [] None ∅ None eq_refl).
Defined.

Lemma create_accumulates_witness :
  wf after_hello
  ∧ exists u,
      objects (demo_create tool_dialogue after_hello).1 !! 4%positive = Some u
      ∧ objects (demo_create tool_dialogue after_hello).1 !! 2%positive
        = Some (usage_add (RequestUsage.mk 0 2) u).
Proof.
  assert (wf after_hello) as Hwf by (split; vm_compute; reflexivity).
  split; [exact Hwf|].
  destruct (create_accumulates (Tool := unit) (JsonOutput := unit)
              (Any := unit) (CancellationToken := unit) scripted
              after_hello tool_dialogue [] None ∅ None
              (demo_create tool_dialogue after_hello).1
              (CreateResult.mk (py "stop") (py "It is sunny today")
                 4%positive false) Hwf)
    as (u & Hu & _ & _ & Htotal).
  - vm_compute. reflexivity.
  - exists u. split; [exact Hu | exact Htotal].
Defined.

Lemma create_keeps_other_objects_witness :
  objects (demo_create tool_dialogue after_hello).1 !! 3%positive
  = Some (RequestUsage.mk 0 2).
Proof.
  assert (wf after_hello) as Hwf by (split; vm_compute; reflexivity).
  rewrite (create_keeps_other_objects (Tool := unit) (JsonOutput := unit)
             (Any := unit) (CancellationToken := unit) scripted
             after_hello tool_dialogue [] None ∅ None
             (demo_create tool_dialogue after_hello).1
             (demo_create tool_dialogue after_hello).2 3%positive Hwf).
  - vm_compute. reflexivity.
  - vm_compute. reflexivity.
  - vm_compute. reflexivity.
  - vm_compute. discriminate.
Defined.

Lemma create_all_total_witness :
  exists total,
    objects (demo_create_all [terse_hi; tool_dialogue] two_replies).1
      !! total = Some (RequestUsage.mk 0 6).
Proof.
  destruct (create_all_total (Tool := unit) (JsonOutput := unit)
              (Any := unit) (CancellationToken := unit)
              (fun _ => [says "Hello there"; says "It is sunny today"])
              scripted None ∅ [terse_hi; tool_dialogue] [] None ∅ None
              (demo_create_all [terse_hi; tool_dialogue] two_replies).1
              [CreateResult.mk (py "stop") (py "Hello there")
                 3%positive false;
               CreateResult.mk (py "stop") (py "It is sunny today")
                 4%positive false])
    as (total & _ & Htotal & _).
  - vm_compute. reflexivity.
  - exists total. exact Htotal.
Defined.



Lemma create_stream_chunk_count_witness :
  exists result u,
    objects (demo_create_stream tool_dialogue after_hello).1
      !! CreateResult.usage result = Some u
    ∧ 4 = RequestUsage.completion_tokens u.
Proof.
  assert (wf after_hello) as Hwf by (split; vm_compute; reflexivity).
  destruct (create_stream_chunk_count (Tool := unit) (JsonOutput := unit)
              (Any := unit) (CancellationToken := unit) scripted
              after_hello tool_dialogue [] None ∅ None
              (demo_create_stream tool_dialogue after_hello).1
              [inl (py "It "); inl (py "is "); inl (py "sunny ");
               inl (py "today");
               inr (CreateResult.mk (py "stop") (py "It is sunny today")
                      4%positive false)] Hwf)
    as (result & u & _ & Hu & Hlen & _).
  - vm_compute. reflexivity.
  - exists result, u. split; [exact Hu | exact Hlen].
Defined.

Lemma create_stream_blank_reply_witness :
  exists st' result,
    demo_create_stream terse_hi (adapter [says "   "])
    = (st', Returns [inr result])
    ∧ CreateResult.content result = py "   "
    ∧ objects st' !! CreateResult.usage result = Some (RequestUsage.mk 0 0).
Proof.
  assert (wf (adapter [says "   "])) as Hwf
    by (split; vm_compute; reflexivity).
  assert (Forall (fun ch => Py_UNICODE_ISSPACE ch = true) (py "   "))
    as Hblank by (repeat constructor).
  exact (create_stream_blank_reply (Tool := unit) (JsonOutput := unit)
           (Any := unit) (CancellationToken := unit) scripted
           (adapter [says "   "]) terse_hi [] None ∅ None
           [] (Reply.mk (py "   ")) Hwf eq_refl Hblank).
Defined.

Lemma create_stream_keeps_tokens_witness :
  exists result,
    split (concat [py "Hello "; py "there"])
    = split (CreateResult.content result)
    ∧ CreateResult.content result = [72; 101; 108; 108; 111; 9; 10; 116;
                                     104; 101; 114; 101; 32]%N.
Proof.
  destruct (create_stream_keeps_tokens (Tool := unit) (JsonOutput := unit)
              (Any := unit) (CancellationToken := unit) scripted
              (adapter [Returns (Reply.mk
                 [72; 101; 108; 108; 111; 9; 10; 116; 104; 101; 114; 101;
                  32]%N)])
              terse_hi [] None ∅ None
              (demo_create_stream terse_hi
                 (adapter [Returns (Reply.mk
                    [72; 101; 108; 108; 111; 9; 10; 116; 104; 101; 114;
                     101; 32]%N)])).1
              [inl (py "Hello "); inl (py "there");
               inr (CreateResult.mk (py "stop")
                      [72; 101; 108; 108; 111; 9; 10; 116; 104; 101; 114;
                       101; 32]%N 3%positive false)])
    as (result & Hlast & _ & Hsplit).
  - vm_compute. reflexivity.
  - exists result. split; [exact Hsplit|].
    vm_compute in Hlast. by injection Hlast as <-.
Defined.

Lemma completion_tokens_bounds_witness :
  exists u,
    objects (demo_create tool_dialogue after_hello).1 !! 4%positive = Some u
    ∧ 0 ≤ RequestUsage.completion_tokens u
    ∧ 2 * RequestUsage.completion_tokens u ≤ 17 + 1.
Proof.
  assert (wf after_hello) as Hwf by (split; vm_compute; reflexivity).
  destruct (completion_tokens_bounds (Tool := unit) (JsonOutput := unit)
              (Any := unit) (CancellationToken := unit) scripted
              after_hello tool_dialogue [] None ∅ None
              (demo_create tool_dialogue after_hello).1
              (CreateResult.mk (py "stop") (py "It is sunny today")
                 4%positive false) Hwf)
    as (u & Hu & Hlow & Hhigh & _).
  - vm_compute. reflexivity.
  - exists u. split; [exact Hu|]. split; [exact Hlow | exact Hhigh].
Defined.

Lemma config_round_trip_witness :
  _to_config (Exn := ScriptError) (fun h : option str => h)
    (_from_config (fun model => model)
       (TSCEChatCompletionClientConfig.mk (Some (py "gpt-4o"))) ∅)
  = (_from_config (fun model => model)
       (TSCEChatCompletionClientConfig.mk (Some (py "gpt-4o"))) ∅,
     Returns (TSCEChatCompletionClientConfig.mk (Some (py "gpt-4o")))).
Proof.
  exact (config_round_trip (Exn := ScriptError) (fun model => model)
           (fun h => h)
           (TSCEChatCompletionClientConfig.mk (Some (py "gpt-4o"))) ∅
           (fun model => eq_refl)).
Defined.
